(** * Contact-point reconciliation task of Grafana OnCall

    A shallow embedding of
    [engine/apps/alerts/tasks/create_contact_points_for_datasource.py]:
    the cache key, the scheduling task and the worker task with its
    per-datasource loop.

    Python values are an inductive type, dictionaries are [gmap string pyval],
    and the task bodies are written in a small state monad over a [world]
    that holds the Django cache, the [AlertReceiveChannel] table, the tasks
    handed to the queue, the state of the Grafana side and the ordered log
    of every call that leaves the task body.

    The Grafana client and the alerting sync manager are collaborators whose
    code lives elsewhere; they are the fields of the class [External].
    They are taken as functions on the Grafana state that return normally;
    an exception escaping from them is handled by the task decorator, which
    is not part of this file. *)

From stdpp Require Import base option list gmap strings pretty.

Local Open Scope string_scope.
Local Open Scope list_scope.
Local Open Scope Z_scope.

(** ** Python values *)

Inductive pyval : Type :=
  | PyNone
  | PyBool (b : bool)
  | PyInt (n : Z)
  | PyStr (s : string).

Global Instance pyval_eq_dec : EqDecision pyval.
Proof. solve_decision. Defined.

Abbreviation pydict := (gmap string pyval).

(** [bool(v)]. *)
Definition truthy (v : pyval) : bool :=
  match v with
  | PyNone => false
  | PyBool b => b
  | PyInt n => negb (n =? 0)
  | PyStr s => negb (String.eqb s "")
  end.

(** [a or b]: the first operand when it is truthy, else the second. *)
Definition py_or (a b : pyval) : pyval := if truthy a then a else b.

(** [not a]. *)
Definition py_not (a : pyval) : bool := negb (truthy a).

(** [a == b]; a bool compares with an int as 0 or 1. *)
Definition py_eq (a b : pyval) : bool :=
  match a, b with
  | PyNone, PyNone => true
  | PyBool x, PyBool y => Bool.eqb x y
  | PyInt x, PyInt y => x =? y
  | PyBool x, PyInt y => Z.b2z x =? y
  | PyInt x, PyBool y => x =? Z.b2z y
  | PyStr x, PyStr y => String.eqb x y
  | _, _ => false
  end.

(** [d.get(k)]: [None] for a missing key. *)
Definition dict_get (d : pydict) (k : string) : pyval := default PyNone (d !! k).

(** [rest_framework.status] *)
Definition HTTP_400_BAD_REQUEST : pyval := PyInt 400.
Definition HTTP_404_NOT_FOUND : pyval := PyInt 404.

(** ** Records of the Django side *)

Record Organization : Type := {
  grafana_url : string;
  org_api_token : string;
}.

(** A row of the [AlertReceiveChannel] table; its primary key is the key of
    the table. *)
Record AlertReceiveChannel : Type := {
  organization : Organization;
  is_finished_alerting_setup : bool;
}.

Definition set_is_finished_alerting_setup (b : bool) (c : AlertReceiveChannel)
  : AlertReceiveChannel :=
  {| organization := organization c; is_finished_alerting_setup := b |}.

Record GrafanaAPIClient : Type := {
  api_url : string;
  api_token : string;
}.

(** The two bound methods of the client the task hands to the sync manager. *)
Inductive client_method : Type :=
  | get_alerting_config
  | get_alertmanager_status_with_config.

Inductive log_level : Type := DEBUG | WARNING.

(** A cache entry keeps the timeout it was stored with.  Time does not pass
    inside a task body; an entry that has expired is one that is no longer
    in the cache when the task starts. *)
Record cache_entry : Type := {
  cached_value : string;
  cached_timeout : Z;
}.

(** A task handed to the queue by [apply_async]. *)
Record queued_task : Type := {
  task_id : string;
  task_channel_id : Z;
  task_datasources : list pydict;
  task_countdown : Z;
}.

(** Every call that leaves the task body, in program order. *)
Inductive event : Type :=
  | CacheGet (key : string)
  | CacheSet (key : string) (value : string) (timeout : Z)
  | ChannelLookup (pk : Z)
  | ChannelSave (pk : Z) (update_fields : list string)
  | AlertingConfigCall (is_grafana_datasource : bool) (id uid : pyval)
      (method : client_method)
  | CreateContactPoint (datasource : pydict)
  | ApplyAsync (alert_receive_channel_id : Z) (datasource_list : list pydict)
      (countdown : Z)
  | Log (level : log_level).

Definition is_backend_call (e : event) : bool :=
  match e with
  | AlertingConfigCall _ _ _ _ | CreateContactPoint _ => true
  | _ => false
  end.

Definition is_create_call (e : event) : bool :=
  match e with CreateContactPoint _ => true | _ => false end.

Definition is_channel_lookup (e : event) : bool :=
  match e with ChannelLookup _ => true | _ => false end.

Definition is_channel_save (e : event) : bool :=
  match e with ChannelSave _ _ => true | _ => false end.

Definition is_cache_set (e : event) : bool :=
  match e with CacheSet _ _ _ => true | _ => false end.

Definition is_reschedule (e : event) : bool :=
  match e with ApplyAsync _ _ _ => true | _ => false end.

(** The calls the per-datasource loop can make: the Grafana side and the
    logger. *)
Definition is_loop_event (e : event) : bool :=
  match e with
  | AlertingConfigCall _ _ _ _ | CreateContactPoint _ | Log _ => true
  | _ => false
  end.

(** A config fetch: the dispatcher called with [client.get_alerting_config]. *)
Definition is_config_fetch (e : event) : bool :=
  match e with
  | AlertingConfigCall _ _ _ get_alerting_config => true
  | _ => false
  end.

(** Number of events of a kind in a log. *)
Definition count_events (p : event → bool) (t : list event) : nat :=
  length (filter (λ e, p e = true) t).

(** ** Collaborators *)

(** What the task calls and this file does not define: the alerting sync
    manager of an integration (bound to the integration's primary key and
    row), acting on the state of the Grafana side, and the identifiers the
    queue gives to the tasks it accepts. *)
Class External : Type := {
  backend : Type;
  config : Type;
  contact_point : Type;
  alerting_config_with_respect_to_grafana_version :
    Z → AlertReceiveChannel → bool → pyval → pyval →
    GrafanaAPIClient → client_method → backend →
    (option config * pydict) * backend;
  create_contact_point :
    Z → AlertReceiveChannel → pydict → backend →
    option contact_point * backend;
  (** identifier of the n-th task accepted by the queue *)
  new_task_id : nat → string;
}.

(** A scripted Grafana side for the examples.  Its state counts the calls
    made so far; the answer to a config fetch is chosen by the [uid] asked
    for: ["bad"] answers 400, ["missing"] answers 404, ["down"] answers 500,
    and any other value gets a config.  Contact points are created for
    every datasource except the one with uid ["stuck"]. *)
Definition status_reply (code : Z) : option unit * pydict :=
  (None, {[ "status_code" := PyInt code ]}).

Definition scripted_config (uid : pyval) : option unit * pydict :=
  if decide (uid = PyStr "bad") then status_reply 400
  else if decide (uid = PyStr "missing") then status_reply 404
  else if decide (uid = PyStr "down") then status_reply 500
  else (Some (), ∅).

Definition scripted_create (datasource : pydict) : option unit :=
  if decide (dict_get datasource "uid" = PyStr "stuck") then None else Some ().

Definition scripted : External := {|
  backend := nat;
  config := unit;
  contact_point := unit;
  alerting_config_with_respect_to_grafana_version :=
    λ _ _ _ _ uid _ _ calls, (scripted_config uid, S calls);
  create_contact_point := λ _ _ datasource calls, (scripted_create datasource, S calls);
  new_task_id := λ n, "task-" +:+ pretty n;
|}.

Definition ds_uid (uid : string) : pydict := {[ "uid" := PyStr uid ]}.
Definition ds_id (id : Z) : pydict := {[ "id" := PyInt id ]}.

Definition demo_channel : AlertReceiveChannel :=
  {| organization := {| grafana_url := "http://grafana"; org_api_token := "secret" |};
     is_finished_alerting_setup := false |}.

Section Tasks.
Context `{Ext : External}.

(** ** The world the tasks act on *)

Record world : Type := World {
  cache : gmap string cache_entry;
  channels : gmap Z AlertReceiveChannel;
  scheduled : list queued_task;
  grafana : backend;
  trace : list event;
}.

(** ** State monad *)

Definition M (A : Type) : Type := world → A * world.

Global Instance M_ret : MRet M := λ A a w, (a, w).

Global Instance M_bind : MBind M :=
  λ A B k m w, let r := m w in k r.1 r.2.

(** A primitive step, given by its action on the world. *)
Definition step {A} (f : world → A * world) : M A := f.

(** State after running a task body. *)
Definition exec {A} (m : M A) (w : world) : world := (m w).2.

(** Record a call in the log. *)
Definition record (e : event) (w : world) : world :=
  World (cache w) (channels w) (scheduled w) (grafana w) (trace w ++ [e]).

Definition emit (e : event) : M unit := step (λ w, (tt, record e w)).

(** [logger.debug(...)], [logger.warning(...)] *)
Definition logger (level : log_level) : M unit := emit (Log level).

(** [cache.get(key)] *)
Definition cache_get (key : string) : M (option string) :=
  emit (CacheGet key);;
  step (λ w, (cached_value <$> cache w !! key, w)).

(** [cache.set(key, value, timeout=timeout)] *)
Definition cache_set (key value : string) (timeout : Z) : M unit :=
  emit (CacheSet key value timeout);;
  step (λ w,
    (tt, World (<[key := {| cached_value := value; cached_timeout := timeout |}]> (cache w))
           (channels w) (scheduled w) (grafana w) (trace w))).

(** [AlertReceiveChannel.objects.filter(pk=pk).first()] *)
Definition objects_filter_first (pk : Z) : M (option AlertReceiveChannel) :=
  emit (ChannelLookup pk);;
  step (λ w, (channels w !! pk, w)).

(** [obj.is_finished_alerting_setup = True;
     obj.save(update_fields=["is_finished_alerting_setup"])]
    for the object loaded under primary key [pk]: one column of that row is
    written. *)
Definition save_is_finished_alerting_setup (pk : Z) : M unit :=
  emit (ChannelSave pk ["is_finished_alerting_setup"]);;
  step (λ w,
    (tt, World (cache w)
           (alter (set_is_finished_alerting_setup true) pk (channels w))
           (scheduled w) (grafana w) (trace w))).

(** The task [apply_async] hands to the queue in world [w]. *)
Definition new_task (alert_receive_channel_id : Z) (datasource_list : list pydict)
    (countdown : Z) (w : world) : queued_task :=
  {| task_id := new_task_id (length (scheduled w));
     task_channel_id := alert_receive_channel_id;
     task_datasources := datasource_list;
     task_countdown := countdown |}.

(** [create_contact_points_for_datasource.apply_async(args=[...], countdown=...)];
    the result is the identifier of the new task. *)
Definition apply_async (alert_receive_channel_id : Z) (datasource_list : list pydict)
    (countdown : Z) : M string :=
  emit (ApplyAsync alert_receive_channel_id datasource_list countdown);;
  step (λ w,
    let t := new_task alert_receive_channel_id datasource_list countdown w in
    (task_id t,
     World (cache w) (channels w) (scheduled w ++ [t]) (grafana w) (trace w))).

(** A call of the sync manager's version dispatcher with one of the client's
    methods. *)
Definition call_alerting_config (pk : Z) (ch : AlertReceiveChannel)
    (is_grafana_datasource : bool) (id uid : pyval)
    (client : GrafanaAPIClient) (method : client_method)
  : M (option config * pydict) :=
  emit (AlertingConfigCall is_grafana_datasource id uid method);;
  step (λ w,
    let r := alerting_config_with_respect_to_grafana_version
               pk ch is_grafana_datasource id uid client method (grafana w) in
    (r.1, World (cache w) (channels w) (scheduled w) r.2 (trace w))).

(** [grafana_alerting_sync_manager.create_contact_point(datasource)] *)
Definition call_create_contact_point (pk : Z) (ch : AlertReceiveChannel)
    (datasource : pydict) : M (option contact_point) :=
  emit (CreateContactPoint datasource);;
  step (λ w,
    let r := create_contact_point pk ch datasource (grafana w) in
    (r.1, World (cache w) (channels w) (scheduled w) r.2 (trace w))).

(** ** The module's functions *)

Definition get_cache_key_create_contact_points_for_datasource
    (alert_receive_channel_id : Z) : string :=
  let CACHE_KEY_PREFIX := "create_contact_points_for_datasource" in
  CACHE_KEY_PREFIX +:+ "_" +:+ pretty alert_receive_channel_id.

Definition schedule_create_contact_points_for_datasource
    (alert_receive_channel_id : Z) (datasource_list : list pydict) : M unit :=
  let CACHE_LIFETIME := 600 in
  let START_TASK_DELAY := 3 in
  task ← apply_async alert_receive_channel_id datasource_list START_TASK_DELAY;
  let cache_key :=
    get_cache_key_create_contact_points_for_datasource alert_receive_channel_id in
  cache_set cache_key task CACHE_LIFETIME.

(** [not (datasource.get("id") or datasource.get("uid"))] *)
Definition is_grafana_datasource (datasource : pydict) : bool :=
  py_not (py_or (dict_get datasource "id") (dict_get datasource "uid")).

(** The statement after the branches of the loop body: [if contact_point is
    None], warn and append the datasource to the list. *)
Definition append_if_none (contact_point : option contact_point)
    (datasource : pydict) (datasources_to_create : list pydict)
  : M (list pydict) :=
  match contact_point with
  | None => logger WARNING;; mret (datasources_to_create ++ [datasource])
  | Some _ => mret datasources_to_create
  end.

(** One iteration of [for datasource in datasource_list]; the result is the
    list [datasources_to_create] after the iteration. *)
Definition loop_body (pk : Z) (ch : AlertReceiveChannel) (client : GrafanaAPIClient)
    (datasource : pydict) (datasources_to_create : list pydict)
  : M (list pydict) :=
  let is_grafana := is_grafana_datasource datasource in
  fetched ← call_alerting_config pk ch is_grafana
              (dict_get datasource "id") (dict_get datasource "uid")
              client get_alerting_config;
  let config := fetched.1 in
  let response_info := fetched.2 in
  match config with
  | None =>
      logger DEBUG;;
      if py_eq (dict_get response_info "status_code") HTTP_404_NOT_FOUND then
        _ ← call_alerting_config pk ch is_grafana
              (dict_get datasource "id") (dict_get datasource "uid")
              client get_alertmanager_status_with_config;
        contact_point ← call_create_contact_point pk ch datasource;
        append_if_none contact_point datasource datasources_to_create
      else if py_eq (dict_get response_info "status_code") HTTP_400_BAD_REQUEST then
        logger WARNING;;
        mret datasources_to_create
      else
        append_if_none None datasource datasources_to_create
  | Some _ =>
      contact_point ← call_create_contact_point pk ch datasource;
      append_if_none contact_point datasource datasources_to_create
  end.

(** The [for] loop, threading [datasources_to_create]. *)
Fixpoint for_datasources (pk : Z) (ch : AlertReceiveChannel) (client : GrafanaAPIClient)
    (datasource_list : list pydict) (datasources_to_create : list pydict)
  : M (list pydict) :=
  match datasource_list with
  | [] => mret datasources_to_create
  | datasource :: rest =>
      acc ← loop_body pk ch client datasource datasources_to_create;
      for_datasources pk ch client rest acc
  end.

(** [cached_task_id is not None and current_task_id != cached_task_id] *)
Definition superseded (cached_task_id : option string) (current_task_id : string)
  : bool :=
  match cached_task_id with
  | Some c => bool_decide (current_task_id ≠ c)
  | None => false
  end.

Definition make_client (ch : AlertReceiveChannel) : GrafanaAPIClient :=
  {| api_url := grafana_url (organization ch);
     api_token := org_api_token (organization ch) |}.

(** The worker task; [current_task_id] is
    [create_contact_points_for_datasource.request.id]. *)
Definition create_contact_points_for_datasource (current_task_id : string)
    (alert_receive_channel_id : Z) (datasource_list : list pydict) : M unit :=
  let cache_key :=
    get_cache_key_create_contact_points_for_datasource alert_receive_channel_id in
  cached_task_id ← cache_get cache_key;
  if superseded cached_task_id current_task_id then mret tt
  else
    alert_receive_channel ← objects_filter_first alert_receive_channel_id;
    match alert_receive_channel with
    | None => logger DEBUG
    | Some ch =>
        let client := make_client ch in
        datasources_to_create ←
          for_datasources alert_receive_channel_id ch client datasource_list [];
        match datasources_to_create with
        | _ :: _ =>
            schedule_create_contact_points_for_datasource
              alert_receive_channel_id datasources_to_create
        | [] => save_is_finished_alerting_setup alert_receive_channel_id
        end
    end.

(** The config fetch the loop body makes for [datasource] in world [w]:
    its result and the state of the Grafana side after it. *)
Definition fetch_config (pk : Z) (ch : AlertReceiveChannel) (datasource : pydict)
    (w : world) : (option config * pydict) * backend :=
  alerting_config_with_respect_to_grafana_version pk ch
    (is_grafana_datasource datasource)
    (dict_get datasource "id") (dict_get datasource "uid")
    (make_client ch) get_alerting_config (grafana w).

(** The log entry of a dispatcher call made for [datasource]. *)
Definition config_call_event (datasource : pydict) (method : client_method) : event :=
  AlertingConfigCall (is_grafana_datasource datasource)
    (dict_get datasource "id") (dict_get datasource "uid") method.

(** The initialization call the loop body makes after a 404, from the
    Grafana state [b]. *)
Definition initialize_alerting (pk : Z) (ch : AlertReceiveChannel)
    (datasource : pydict) (b : backend) : (option config * pydict) * backend :=
  alerting_config_with_respect_to_grafana_version pk ch
    (is_grafana_datasource datasource)
    (dict_get datasource "id") (dict_get datasource "uid")
    (make_client ch) get_alertmanager_status_with_config b.

(** [response_info.get("status_code")] *)
Definition status_code (response_info : pydict) : pyval :=
  dict_get response_info "status_code".

(** The loop of a round after the datasources [done] have been processed:
    the list built so far and the world reached. *)
Definition reached (pk : Z) (ch : AlertReceiveChannel) (done : list pydict)
    (w : world) : list pydict * world :=
  for_datasources pk ch (make_client ch) done [] w.

(** The list [datasources_to_create] a round ends its loop with. *)
Definition retry_set (pk : Z) (ch : AlertReceiveChannel)
    (datasource_list : list pydict) (w : world) : list pydict :=
  (for_datasources pk ch (make_client ch) datasource_list [] w).1.

(** The calls a task body makes when started in [w]. *)
Definition emitted {A} (m : M A) (w : world) : list event :=
  drop (length (trace w)) (trace (m w).2).

(** The task that runs a queued task: the worker with the task's identifier
    as its own id. *)
Definition run_task (t : queued_task) : M unit :=
  create_contact_points_for_datasource
    (task_id t) (task_channel_id t) (task_datasources t).

(** [subsequent_retry_set pk r0 r]: [r] is the list a later round of the
    integration ends its loop with, when an earlier round ended with [r0].
    A round is followed by another one only when its list is not empty, and
    the next round's input is that list; the state of the world in which a
    later round runs is arbitrary. *)
Inductive subsequent_retry_set (pk : Z) : list pydict → list pydict → Prop :=
  | subsequent_next r0 ch w :
      r0 ≠ [] →
      subsequent_retry_set pk r0 (retry_set pk ch r0 w)
  | subsequent_later r0 r ch w :
      subsequent_retry_set pk r0 r →
      r ≠ [] →
      subsequent_retry_set pk r0 (retry_set pk ch r w).

End Tasks.

(** A world for the examples: integration 42 exists, nothing is cached. *)
Definition demo_world : world (Ext := scripted) :=
  World (Ext := scripted) ∅ {[ 42 := demo_channel ]} [] 0%nat [].

(** The same world after a later scheduling call stored the id of its task
    for integration 42. *)
Definition superseded_world : world (Ext := scripted) :=
  World (Ext := scripted)
    {[ get_cache_key_create_contact_points_for_datasource 42 :=
         {| cached_value := "task-1"; cached_timeout := 600 |} ]}
    {[ 42 := demo_channel ]} [] 0%nat [].

(** A world in which integration 42 has finished its setup and integration
    43 has not. *)
Definition finished_world : world (Ext := scripted) :=
  World (Ext := scripted) ∅
    {[ 42 := set_is_finished_alerting_setup true demo_channel; 43 := demo_channel ]}
    [] 0%nat [].

Section Proofs.
Context `{Ext : External}.

Implicit Types (w : world) (d : pydict) (l acc : list pydict).

(** ** Python comparisons *)

Lemma py_eq_int_exclusive (v : pyval) (a b : Z) :
  a ≠ b → py_eq v (PyInt a) = true → py_eq v (PyInt b) = false.
Proof.
  intros Hab. destruct v as [| x | n | s]; simpl; try discriminate.
  - intros H%Z.eqb_eq. apply Z.eqb_neq. congruence.
  - intros H%Z.eqb_eq. apply Z.eqb_neq. congruence.
Qed.

Lemma not_found_is_not_bad_request (v : pyval) :
  py_eq v HTTP_400_BAD_REQUEST = true → py_eq v HTTP_404_NOT_FOUND = false.
Proof. apply py_eq_int_exclusive. discriminate. Qed.

(** ** The monad *)

Lemma bind_run {A B} (m : M A) (k : A → M B) w :
  (m ≫= k) w = k (m w).1 (m w).2.
Proof. reflexivity. Qed.

Lemma emitted_extends {A} (m : M A) w t :
  trace (m w).2 = trace w ++ t → emitted m w = t.
Proof.
  intros H. unfold emitted. rewrite H. by rewrite drop_app_length.
Qed.

Ltac run_primitives :=
  unfold append_if_none, call_alerting_config, call_create_contact_point,
    logger, emit, step, record;
  rewrite ?bind_run; simpl.

(** ** One iteration *)

(** What an iteration leaves alone, and the shape of what it adds. *)
Lemma loop_body_frame pk ch cl d acc w :
  let r := loop_body pk ch cl d acc w in
  (r.1 = acc ∨ r.1 = acc ++ [d]) ∧
  cache r.2 = cache w ∧ channels r.2 = channels w ∧
  scheduled r.2 = scheduled w ∧
  ∃ t, trace r.2 = trace w ++ t ∧ Forall (λ e, is_loop_event e = true) t.
Proof.
  unfold loop_body. run_primitives.
  destruct (alerting_config_with_respect_to_grafana_version _ _ _ _ _ _ _ _)
    as [[cfg resp] b]; simpl.
  destruct cfg as [c|]; run_primitives.
  - destruct (create_contact_point _ _ _ _) as [[cp|] b']; run_primitives.
    all: repeat split; eauto; rewrite <- ?app_assoc; eexists; split;
      [reflexivity | repeat constructor].
  - destruct (py_eq _ HTTP_404_NOT_FOUND); run_primitives.
    + destruct (alerting_config_with_respect_to_grafana_version _ _ _ _ _ _ _ _)
        as [[cfg' resp'] b']; simpl.
      destruct (create_contact_point _ _ _ _) as [[cp|] b'']; run_primitives.
      all: repeat split; eauto; rewrite <- ?app_assoc; eexists; split;
        [reflexivity | repeat constructor].
    + destruct (py_eq _ HTTP_400_BAD_REQUEST); run_primitives.
      all: repeat split; eauto; rewrite <- ?app_assoc; eexists; split;
        [reflexivity | repeat constructor].
Qed.

(** The value an iteration computes and the Grafana state it leaves depend
    on the world only through the Grafana state. *)
Lemma loop_body_grafana pk ch cl d acc w w' :
  grafana w = grafana w' →
  (loop_body pk ch cl d acc w).1 = (loop_body pk ch cl d acc w').1 ∧
  grafana (loop_body pk ch cl d acc w).2 = grafana (loop_body pk ch cl d acc w').2.
Proof.
  intros Hg. unfold loop_body. run_primitives. rewrite <- Hg.
  destruct (alerting_config_with_respect_to_grafana_version _ _ _ _ _ _ _ _)
    as [[cfg resp] b]; simpl.
  destruct cfg as [c|]; run_primitives.
  - by destruct (create_contact_point _ _ _ _) as [[cp|] b'].
  - destruct (py_eq _ HTTP_404_NOT_FOUND); run_primitives.
    + destruct (alerting_config_with_respect_to_grafana_version _ _ _ _ _ _ _ _)
        as [[cfg' resp'] b']; simpl.
      by destruct (create_contact_point _ _ _ _) as [[cp|] b''].
    + by destruct (py_eq _ HTTP_400_BAD_REQUEST).
Qed.

(** ** The loop *)

Lemma for_datasources_cons pk ch cl d l acc w :
  for_datasources pk ch cl (d :: l) acc w =
  for_datasources pk ch cl l (loop_body pk ch cl d acc w).1
    (loop_body pk ch cl d acc w).2.
Proof. reflexivity. Qed.

Lemma for_datasources_app pk ch cl l1 l2 acc w :
  for_datasources pk ch cl (l1 ++ l2) acc w =
  for_datasources pk ch cl l2 (for_datasources pk ch cl l1 acc w).1
    (for_datasources pk ch cl l1 acc w).2.
Proof.
  revert acc w. induction l1 as [|d l1 IH]; intros acc w; [done|].
  rewrite <- app_comm_cons, !for_datasources_cons. apply IH.
Qed.

(** The list only grows at its end, by a sublist of the datasources
    processed. *)
Lemma for_datasources_sublist pk ch cl l acc w :
  ∃ k, (for_datasources pk ch cl l acc w).1 = acc ++ k ∧ k `sublist_of` l.
Proof.
  revert acc w. induction l as [|d l IH]; intros acc w.
  - exists []. split; [by rewrite app_nil_r | constructor].
  - rewrite for_datasources_cons.
    destruct (loop_body_frame pk ch cl d acc w) as ([Hr|Hr] & _).
    + destruct (IH (loop_body pk ch cl d acc w).1 (loop_body pk ch cl d acc w).2)
        as (k & Hk & Hsub).
      exists k. split; [by rewrite Hk, Hr | by apply sublist_cons].
    + destruct (IH (loop_body pk ch cl d acc w).1 (loop_body pk ch cl d acc w).2)
        as (k & Hk & Hsub).
      exists (d :: k). split; [by rewrite Hk, Hr, <- app_assoc | by apply sublist_skip].
Qed.

(** The loop leaves the cache, the table and the queue alone, and calls
    only the Grafana side and the logger. *)
Lemma for_datasources_frame pk ch cl l acc w :
  let r := for_datasources pk ch cl l acc w in
  cache r.2 = cache w ∧ channels r.2 = channels w ∧
  scheduled r.2 = scheduled w ∧
  ∃ t, trace r.2 = trace w ++ t ∧ Forall (λ e, is_loop_event e = true) t.
Proof.
  revert acc w. induction l as [|d l IH]; intros acc w; cbv zeta.
  - simpl. split_and!; try done. exists []. split; [by rewrite app_nil_r | constructor].
  - change (for_datasources pk ch cl (d :: l) acc w) with
      (for_datasources pk ch cl l (loop_body pk ch cl d acc w).1
         (loop_body pk ch cl d acc w).2).
    destruct (loop_body_frame pk ch cl d acc w) as (_ & Hc & Hch & Hs & t1 & Ht1 & F1).
    destruct (IH (loop_body pk ch cl d acc w).1 (loop_body pk ch cl d acc w).2)
      as (Hc' & Hch' & Hs' & t2 & Ht2 & F2).
    cbv zeta in *. split_and!; try congruence.
    exists (t1 ++ t2). split; [by rewrite Ht2, Ht1, app_assoc | by apply Forall_app].
Qed.

Lemma for_datasources_grafana pk ch cl l acc w w' :
  grafana w = grafana w' →
  (for_datasources pk ch cl l acc w).1 = (for_datasources pk ch cl l acc w').1 ∧
  grafana (for_datasources pk ch cl l acc w).2 =
    grafana (for_datasources pk ch cl l acc w').2.
Proof.
  revert acc w w'. induction l as [|d l IH]; intros acc w w' Hg; [done|].
  rewrite !for_datasources_cons.
  destruct (loop_body_grafana pk ch cl d acc w w' Hg) as [Hv Hg'].
  rewrite Hv. by apply IH.
Qed.

Lemma retry_set_grafana pk ch l w w' :
  grafana w = grafana w' → retry_set pk ch l w = retry_set pk ch l w'.
Proof. intros Hg. by apply for_datasources_grafana. Qed.

Lemma retry_set_sublist pk ch l w : retry_set pk ch l w `sublist_of` l.
Proof.
  unfold retry_set.
  destruct (for_datasources_sublist pk ch (make_client ch) l [] w) as (k & Hk & Hsub).
  by rewrite Hk.
Qed.

(** Events of one kind among loop events of another kind. *)
Lemma count_events_loop (p : event → bool) (t : list event) :
  (∀ e, is_loop_event e = true → p e = false) →
  Forall (λ e, is_loop_event e = true) t →
  count_events p t = 0%nat.
Proof.
  intros Hp. unfold count_events. induction 1 as [|e t He _ IH]; [done|].
  rewrite filter_cons_False; [done|]. rewrite (Hp e He). discriminate.
Qed.

Lemma count_events_app (p : event → bool) (t1 t2 : list event) :
  count_events p (t1 ++ t2) = (count_events p t1 + count_events p t2)%nat.
Proof. unfold count_events. by rewrite filter_app, length_app. Qed.

(** ** The scheduling task and the worker *)

Lemma schedule_run pk l w :
  schedule_create_contact_points_for_datasource pk l w =
  (tt, World
         (<[get_cache_key_create_contact_points_for_datasource pk :=
              {| cached_value := task_id (new_task pk l 3 w); cached_timeout := 600 |}]>
            (cache w))
         (channels w) (scheduled w ++ [new_task pk l 3 w]) (grafana w)
         (trace w ++ [ApplyAsync pk l 3;
                      CacheSet (get_cache_key_create_contact_points_for_datasource pk)
                        (task_id (new_task pk l 3 w)) 600])).
Proof.
  unfold schedule_create_contact_points_for_datasource, apply_async, cache_set,
    emit, step, record, new_task.
  rewrite !bind_run. simpl. by rewrite <- app_assoc.
Qed.

(** The scheduling task leaves the id of the task it queued in the cache,
    under the key of the integration. *)
Lemma schedule_stores_task_id pk l w :
  cached_value <$>
    cache (exec (schedule_create_contact_points_for_datasource pk l) w)
      !! get_cache_key_create_contact_points_for_datasource pk
  = Some (task_id (new_task pk l 3 w)).
Proof. unfold exec. rewrite schedule_run. simpl. by rewrite lookup_insert_eq. Qed.

(** The world in which the loop of a round starts: the fencing read and the
    integration lookup have been made. *)
Lemma worker_run current_task_id pk dl w ch :
  superseded
    (cached_value <$> cache w !! get_cache_key_create_contact_points_for_datasource pk)
    current_task_id = false →
  channels w !! pk = Some ch →
  create_contact_points_for_datasource current_task_id pk dl w =
  let w0 := record (ChannelLookup pk)
              (record (CacheGet (get_cache_key_create_contact_points_for_datasource pk)) w) in
  let lp := for_datasources pk ch (make_client ch) dl [] w0 in
  match lp.1 with
  | _ :: _ => schedule_create_contact_points_for_datasource pk lp.1 lp.2
  | [] => save_is_finished_alerting_setup pk lp.2
  end.
Proof.
  intros Hf Hch. unfold create_contact_points_for_datasource, cache_get,
    objects_filter_first, emit, step.
  rewrite !bind_run. simpl. rewrite Hf. rewrite !bind_run. simpl. rewrite Hch.
  rewrite !bind_run. by destruct (for_datasources _ _ _ _ _ _).1.
Qed.

(** C1: when the cache holds a task id for the integration and it differs
    from the worker's own id, the worker returns after the cache read: the
    world is the one it started in with that read logged, and the calls it
    made contain no integration lookup, no call of the Grafana side, no
    cache or table write and no reschedule. *)
Theorem superseded_worker_is_noop current_task_id pk dl w token :
  cached_value <$> cache w !! get_cache_key_create_contact_points_for_datasource pk
    = Some token →
  token ≠ current_task_id →
  let run := create_contact_points_for_datasource current_task_id pk dl in
  let key := get_cache_key_create_contact_points_for_datasource pk in
  exec run w = record (CacheGet key) w ∧
  emitted run w = [CacheGet key] ∧
  count_events is_channel_lookup (emitted run w) = 0%nat ∧
  count_events is_backend_call (emitted run w) = 0%nat ∧
  count_events is_cache_set (emitted run w) = 0%nat ∧
  count_events is_channel_save (emitted run w) = 0%nat ∧
  count_events is_reschedule (emitted run w) = 0%nat.
Proof.
  intros Hc Hne run key.
  assert (Hrun : run w = (tt, record (CacheGet key) w)).
  { unfold run, create_contact_points_for_datasource, cache_get, emit, step.
    rewrite !bind_run. simpl. rewrite Hc. simpl.
    rewrite bool_decide_true; [done | congruence]. }
  assert (He : emitted run w = [CacheGet key]).
  { apply emitted_extends. by rewrite Hrun. }
  unfold exec. rewrite He, Hrun. by split_and!.
Qed.

(** C6: when the worker is not superseded and the integration does not
    exist, the worker stops after the lookup and a debug message: it makes
    no call of the Grafana side, writes neither the table nor the cache and
    schedules nothing. *)
Theorem missing_integration_is_left_alone current_task_id pk dl w :
  superseded
    (cached_value <$> cache w !! get_cache_key_create_contact_points_for_datasource pk)
    current_task_id = false →
  channels w !! pk = None →
  let run := create_contact_points_for_datasource current_task_id pk dl in
  let key := get_cache_key_create_contact_points_for_datasource pk in
  emitted run w = [CacheGet key; ChannelLookup pk; Log DEBUG] ∧
  count_events is_backend_call (emitted run w) = 0%nat ∧
  count_events is_channel_save (emitted run w) = 0%nat ∧
  count_events is_cache_set (emitted run w) = 0%nat ∧
  count_events is_reschedule (emitted run w) = 0%nat ∧
  channels (exec run w) = channels w ∧
  cache (exec run w) = cache w ∧
  scheduled (exec run w) = scheduled w ∧
  grafana (exec run w) = grafana w.
Proof.
  intros Hf Hch run key.
  assert (Hrun : run w =
    (tt, record (Log DEBUG) (record (ChannelLookup pk) (record (CacheGet key) w)))).
  { unfold run, create_contact_points_for_datasource, cache_get,
      objects_filter_first, logger, emit, step.
    rewrite !bind_run. simpl. rewrite Hf. rewrite !bind_run. simpl.
    by rewrite Hch. }
  assert (He : emitted run w = [CacheGet key; ChannelLookup pk; Log DEBUG]).
  { apply emitted_extends. rewrite Hrun. simpl. by rewrite <- !app_assoc. }
  unfold exec. rewrite He, Hrun. by split_and!.
Qed.

(** What a round that runs its loop does, by the list the loop ends with. *)
Lemma worker_outcome current_task_id pk dl w ch :
  superseded
    (cached_value <$> cache w !! get_cache_key_create_contact_points_for_datasource pk)
    current_task_id = false →
  channels w !! pk = Some ch →
  let run := create_contact_points_for_datasource current_task_id pk dl in
  let key := get_cache_key_create_contact_points_for_datasource pk in
  ∃ t, Forall (λ e, is_loop_event e = true) t ∧
    match retry_set pk ch dl w with
    | [] =>
        emitted run w =
          [CacheGet key; ChannelLookup pk] ++ t ++
          [ChannelSave pk ["is_finished_alerting_setup"]] ∧
        channels (exec run w) =
          alter (set_is_finished_alerting_setup true) pk (channels w) ∧
        scheduled (exec run w) = scheduled w ∧
        cache (exec run w) = cache w
    | d :: r =>
        emitted run w =
          [CacheGet key; ChannelLookup pk] ++ t ++
          [ApplyAsync pk (d :: r) 3;
           CacheSet key (task_id (new_task pk (d :: r) 3 w)) 600] ∧
        channels (exec run w) = channels w ∧
        scheduled (exec run w) = scheduled w ++ [new_task pk (d :: r) 3 w] ∧
        cache (exec run w) =
          <[key := {| cached_value := task_id (new_task pk (d :: r) 3 w);
                      cached_timeout := 600 |}]> (cache w)
    end.
Proof.
  intros Hf Hch run key.
  set (w0 := record (ChannelLookup pk) (record (CacheGet key) w)).
  destruct (for_datasources_frame pk ch (make_client ch) dl [] w0)
    as (Hc & Hchs & Hs & t & Ht & Floop).
  cbv zeta in Hc, Hchs, Hs, Ht.
  assert (Hr : retry_set pk ch dl w = (for_datasources pk ch (make_client ch) dl [] w0).1)
    by (by apply retry_set_grafana).
  exists t. split; [done|]. rewrite Hr.
  unfold exec, emitted, run. rewrite (worker_run _ _ _ _ _ Hf Hch). cbv zeta. fold key w0.
  destruct (for_datasources pk ch (make_client ch) dl [] w0) as [[|d r] w1] eqn:Hlp;
    cbn [fst snd] in *.
  - unfold save_is_finished_alerting_setup, emit, step, record.
    rewrite !bind_run. simpl. rewrite Ht, Hchs. simpl. split_and!; try done.
    rewrite <- !app_assoc. by rewrite drop_app_length.
  - rewrite schedule_run. simpl. rewrite Ht, Hs, Hc. simpl.
    assert (Hn : new_task pk (d :: r) 3 w1 = new_task pk (d :: r) 3 w)
      by (unfold new_task; by rewrite Hs).
    rewrite Hn. split_and!; try done.
    rewrite <- !app_assoc. by rewrite drop_app_length.
Qed.

(** C2: a worker that is not superseded and finds its integration ends in
    exactly one of two ways.  When the list of datasources to retry is not
    empty it calls the scheduling task once, with that list, and does not
    write the completion flag; when the list is empty it saves the flag as
    true, once, and schedules nothing. *)
Theorem worker_terminal_action current_task_id pk dl w ch :
  superseded
    (cached_value <$> cache w !! get_cache_key_create_contact_points_for_datasource pk)
    current_task_id = false →
  channels w !! pk = Some ch →
  let run := create_contact_points_for_datasource current_task_id pk dl in
  let r := retry_set pk ch dl w in
  (count_events is_reschedule (emitted run w) +
   count_events is_channel_save (emitted run w) = 1)%nat ∧
  (r ≠ [] →
     count_events is_reschedule (emitted run w) = 1%nat ∧
     ApplyAsync pk r 3 ∈ emitted run w ∧
     count_events is_channel_save (emitted run w) = 0%nat ∧
     channels (exec run w) = channels w ∧
     scheduled (exec run w) = scheduled w ++ [new_task pk r 3 w]) ∧
  (r = [] →
     count_events is_channel_save (emitted run w) = 1%nat ∧
     ChannelSave pk ["is_finished_alerting_setup"] ∈ emitted run w ∧
     count_events is_reschedule (emitted run w) = 0%nat ∧
     channels (exec run w) =
       alter (set_is_finished_alerting_setup true) pk (channels w) ∧
     is_finished_alerting_setup <$> channels (exec run w) !! pk = Some true ∧
     scheduled (exec run w) = scheduled w ∧
     cache (exec run w) = cache w).
Proof.
  intros Hf Hch run r.
  destruct (worker_outcome current_task_id pk dl w ch Hf Hch) as (t & Floop & H).
  cbv zeta in H. fold run r in H.
  assert (Hre : count_events is_reschedule t = 0%nat)
    by (apply count_events_loop; [by intros [] | done]).
  assert (Hsv : count_events is_channel_save t = 0%nat)
    by (apply count_events_loop; [by intros [] | done]).
  destruct r as [|d r']; (split; [|split; [intros Hne | intros Hnil]]); try done.
  - destruct H as (He & _). by rewrite He, !count_events_app, Hre, Hsv.
  - destruct H as (He & Hchs & Hs & Hc). rewrite He, !count_events_app, Hre, Hsv.
    split_and!; try done.
    + rewrite !elem_of_app. right. right. apply list_elem_of_here.
    + by rewrite Hchs, lookup_alter_eq, Hch.
  - destruct H as (He & _). by rewrite He, !count_events_app, Hre, Hsv.
  - destruct H as (He & Hchs & Hs & _). rewrite He, !count_events_app, Hre, Hsv.
    split_and!; try done.
    rewrite !elem_of_app. right. right. apply list_elem_of_here.
Qed.

(** ** The branches of an iteration *)

Lemma loop_body_bad_request pk ch d acc w :
  (fetch_config pk ch d w).1.1 = None →
  py_eq (status_code (fetch_config pk ch d w).1.2) HTTP_400_BAD_REQUEST = true →
  loop_body pk ch (make_client ch) d acc w =
  (acc, World (cache w) (channels w) (scheduled w) (fetch_config pk ch d w).2
          (trace w ++ [config_call_event d get_alerting_config; Log DEBUG; Log WARNING])).
Proof.
  unfold fetch_config, status_code, config_call_event, loop_body. intros Hcfg H400.
  run_primitives. rewrite Hcfg. run_primitives.
  rewrite (not_found_is_not_bad_request _ H400), H400. run_primitives.
  by rewrite <- !app_assoc.
Qed.

Lemma loop_body_other_code pk ch d acc w :
  (fetch_config pk ch d w).1.1 = None →
  py_eq (status_code (fetch_config pk ch d w).1.2) HTTP_404_NOT_FOUND = false →
  py_eq (status_code (fetch_config pk ch d w).1.2) HTTP_400_BAD_REQUEST = false →
  loop_body pk ch (make_client ch) d acc w =
  (acc ++ [d],
   World (cache w) (channels w) (scheduled w) (fetch_config pk ch d w).2
     (trace w ++ [config_call_event d get_alerting_config; Log DEBUG; Log WARNING])).
Proof.
  unfold fetch_config, status_code, config_call_event, loop_body.
  intros Hcfg H404 H400.
  run_primitives. rewrite Hcfg. run_primitives. rewrite H404, H400. run_primitives.
  by rewrite <- !app_assoc.
Qed.

Lemma loop_body_not_found pk ch d acc w :
  let f := fetch_config pk ch d w in
  let c := create_contact_point pk ch d (initialize_alerting pk ch d f.2).2 in
  f.1.1 = None →
  py_eq (status_code f.1.2) HTTP_404_NOT_FOUND = true →
  loop_body pk ch (make_client ch) d acc w =
  (match c.1 with None => acc ++ [d] | Some _ => acc end,
   World (cache w) (channels w) (scheduled w) c.2
     (trace w ++
      [config_call_event d get_alerting_config; Log DEBUG;
       config_call_event d get_alertmanager_status_with_config;
       CreateContactPoint d] ++
      match c.1 with None => [Log WARNING] | Some _ => [] end)).
Proof.
  intros f c. subst f c.
  unfold fetch_config, initialize_alerting, status_code, config_call_event, loop_body.
  intros Hcfg H404. run_primitives. rewrite Hcfg. run_primitives. rewrite H404. run_primitives.
  destruct (create_contact_point _ _ _ _).1; run_primitives;
    by rewrite <- !app_assoc.
Qed.

(** ** Rounds *)

(** The list of a round, seen from one entry of the input: what the
    iteration for that entry leaves, followed by entries that come later. *)
Lemma retry_set_split pk ch l1 d l2 w :
  ∃ k,
    retry_set pk ch (l1 ++ d :: l2) w =
      (loop_body pk ch (make_client ch) d
         (reached pk ch l1 w).1 (reached pk ch l1 w).2).1 ++ k ∧
    k `sublist_of` l2.
Proof.
  unfold retry_set, reached. rewrite for_datasources_app, for_datasources_cons.
  apply for_datasources_sublist.
Qed.

Lemma reached_sublist pk ch l w : (reached pk ch l w).1 `sublist_of` l.
Proof. apply retry_set_sublist. Qed.

(** Later rounds only ever shrink the list. *)
Lemma subsequent_sublist pk r0 r :
  subsequent_retry_set pk r0 r → r `sublist_of` r0.
Proof.
  induction 1 as [r0 ch w _ | r0 r ch w _ IH _].
  - apply retry_set_sublist.
  - etrans; [apply retry_set_sublist | exact IH].
Qed.

(** An entry whose iteration leaves the list as it was is gone from the
    list of this round and of every later one. *)
Lemma dropped_entry pk ch l1 d l2 w :
  (loop_body pk ch (make_client ch) d
     (reached pk ch l1 w).1 (reached pk ch l1 w).2).1 = (reached pk ch l1 w).1 →
  retry_set pk ch (l1 ++ d :: l2) w `sublist_of` l1 ++ l2 ∧
  ∀ r, subsequent_retry_set pk (retry_set pk ch (l1 ++ d :: l2) w) r →
       r `sublist_of` l1 ++ l2.
Proof.
  intros Hit.
  assert (Hsub : retry_set pk ch (l1 ++ d :: l2) w `sublist_of` l1 ++ l2).
  { destruct (retry_set_split pk ch l1 d l2 w) as (k & -> & Hk). rewrite Hit.
    apply sublist_app; [apply reached_sublist | done]. }
  split; [done|]. intros r Hr. etrans; [exact (subsequent_sublist pk _ _ Hr) | done].
Qed.

Lemma kept_entry pk ch l1 d l2 w :
  (loop_body pk ch (make_client ch) d
     (reached pk ch l1 w).1 (reached pk ch l1 w).2).1 = (reached pk ch l1 w).1 ++ [d] →
  d ∈ retry_set pk ch (l1 ++ d :: l2) w.
Proof.
  intros Hit. destruct (retry_set_split pk ch l1 d l2 w) as (k & -> & Hk).
  rewrite Hit, !elem_of_app, list_elem_of_singleton. auto.
Qed.

Lemma not_in_sublist d (k l : list pydict) : k `sublist_of` l → d ∉ l → d ∉ k.
Proof. intros Hs Hd Hk. apply Hd. by apply (sublist_subseteq _ _ Hs). Qed.

(** C3: for an entry of the input whose config fetch gives no config and
    status code 400, the iteration makes that fetch and two log calls and
    nothing else, so no contact point creation is attempted, and it leaves
    the list of datasources to retry as it was.  The list of this round and
    of every later round is drawn from the other entries of the input; a
    datasource that occurs nowhere else in the input is in none of them. *)
Theorem bad_request_is_skipped pk ch l1 d l2 w :
  let s := reached pk ch l1 w in
  let f := fetch_config pk ch d s.2 in
  let it := loop_body pk ch (make_client ch) d s.1 in
  let rs := retry_set pk ch (l1 ++ d :: l2) w in
  f.1.1 = None →
  py_eq (status_code f.1.2) HTTP_400_BAD_REQUEST = true →
  emitted it s.2 =
    [config_call_event d get_alerting_config; Log DEBUG; Log WARNING] ∧
  count_events is_create_call (emitted it s.2) = 0%nat ∧
  (it s.2).1 = s.1 ∧
  rs `sublist_of` l1 ++ l2 ∧
  (∀ r, subsequent_retry_set pk rs r → r `sublist_of` l1 ++ l2) ∧
  (d ∉ l1 → d ∉ l2 →
   (d ∉ rs) ∧ (∀ r, subsequent_retry_set pk rs r → d ∉ r)).
Proof.
  intros s f it rs Hcfg H400.
  assert (Hit : it s.2 = (s.1, World (cache s.2) (channels s.2) (scheduled s.2) f.2
      (trace s.2 ++ [config_call_event d get_alerting_config; Log DEBUG; Log WARNING])))
    by (by apply loop_body_bad_request).
  assert (He : emitted it s.2 =
      [config_call_event d get_alerting_config; Log DEBUG; Log WARNING])
    by (apply emitted_extends; by rewrite Hit).
  assert (Hv : (it s.2).1 = s.1) by (by rewrite Hit).
  destruct (dropped_entry pk ch l1 d l2 w Hv) as [Hsub Hlater].
  rewrite He. split_and!; try done.
  intros H1 H2.
  assert (Hd : d ∉ l1 ++ l2) by (rewrite elem_of_app; tauto).
  split; [by eapply not_in_sublist |].
  intros r Hr. exact (not_in_sublist d r (l1 ++ l2) (Hlater r Hr) Hd).
Qed.

(** C4: for an entry whose config fetch gives no config and status code
    404, the iteration makes the fetch, then the initialization call, then
    the contact point creation, in this order; the entry is appended to the
    list of datasources to retry exactly when that creation returns
    nothing. *)
Theorem not_found_initializes_then_creates pk ch l1 d l2 w :
  let s := reached pk ch l1 w in
  let f := fetch_config pk ch d s.2 in
  let c := create_contact_point pk ch d (initialize_alerting pk ch d f.2).2 in
  let it := loop_body pk ch (make_client ch) d s.1 in
  let rs := retry_set pk ch (l1 ++ d :: l2) w in
  f.1.1 = None →
  py_eq (status_code f.1.2) HTTP_404_NOT_FOUND = true →
  emitted it s.2 =
    [config_call_event d get_alerting_config; Log DEBUG;
     config_call_event d get_alertmanager_status_with_config;
     CreateContactPoint d] ++
    match c.1 with None => [Log WARNING] | Some _ => [] end ∧
  ((it s.2).1 = s.1 ++ [d] ↔ c.1 = None) ∧
  (c.1 = None → d ∈ rs) ∧
  (c.1 ≠ None → (it s.2).1 = s.1 ∧ rs `sublist_of` l1 ++ l2).
Proof.
  intros s f c it rs Hcfg H404.
  pose proof (loop_body_not_found pk ch d s.1 s.2 Hcfg H404) as Hit.
  fold f c it in Hit.
  assert (He : emitted it s.2 =
      [config_call_event d get_alerting_config; Log DEBUG;
       config_call_event d get_alertmanager_status_with_config;
       CreateContactPoint d] ++
      match c.1 with None => [Log WARNING] | Some _ => [] end)
    by (apply emitted_extends; by rewrite Hit).
  assert (Hv : (it s.2).1 = match c.1 with None => s.1 ++ [d] | Some _ => s.1 end)
    by (by rewrite Hit).
  split; [done|]. destruct c.1 as [cp|] eqn:Hc.
  - split_and!; try done.
    + split; [|done]. rewrite Hv. intros Heq.
      apply (f_equal length) in Heq. rewrite length_app in Heq. simpl in Heq. lia.
    + intros _. split; [done|]. exact (proj1 (dropped_entry pk ch l1 d l2 w Hv)).
  - split_and!; try done. intros _. by apply kept_entry.
Qed.

(** C5: for an entry whose config fetch gives no config and a status code
    that is neither 404 nor 400, the iteration makes the fetch and two log
    calls and nothing else, so no contact point creation is attempted, and
    the entry is appended to the list of datasources to retry of the
    round. *)
Theorem other_code_is_retried pk ch l1 d l2 w :
  let s := reached pk ch l1 w in
  let f := fetch_config pk ch d s.2 in
  let it := loop_body pk ch (make_client ch) d s.1 in
  f.1.1 = None →
  py_eq (status_code f.1.2) HTTP_404_NOT_FOUND = false →
  py_eq (status_code f.1.2) HTTP_400_BAD_REQUEST = false →
  emitted it s.2 =
    [config_call_event d get_alerting_config; Log DEBUG; Log WARNING] ∧
  count_events is_create_call (emitted it s.2) = 0%nat ∧
  (it s.2).1 = s.1 ++ [d] ∧
  d ∈ retry_set pk ch (l1 ++ d :: l2) w.
Proof.
  intros s f it Hcfg H404 H400.
  pose proof (loop_body_other_code pk ch d s.1 s.2 Hcfg H404 H400) as Hit.
  fold f it in Hit.
  assert (He : emitted it s.2 =
      [config_call_event d get_alerting_config; Log DEBUG; Log WARNING])
    by (apply emitted_extends; by rewrite Hit).
  assert (Hv : (it s.2).1 = s.1 ++ [d]) by (by rewrite Hit).
  rewrite He. split_and!; try done. by apply kept_entry.
Qed.

(** C7, amended: when no datasource record occurs twice in the input list
    of a round, none occurs twice in the list of datasources to retry that
    the round produces. *)
Theorem retry_set_no_duplicates pk ch l w :
  NoDup l → NoDup (retry_set pk ch l w).
Proof. intros Hl. exact (sublist_NoDup _ _ Hl (retry_set_sublist pk ch l w)). Qed.

(** C8, amended: a datasource record is classified as the built-in Grafana
    datasource exactly when neither its id nor its uid is truthy, where a
    missing key reads as [None]; a record with both keys missing is
    classified as built-in. *)
Theorem is_grafana_datasource_iff_no_truthy_id d :
  (is_grafana_datasource d = true ↔
   truthy (dict_get d "id") = false ∧ truthy (dict_get d "uid") = false) ∧
  (d !! "id" = None ∧ d !! "uid" = None → is_grafana_datasource d = true).
Proof.
  unfold is_grafana_datasource, py_not, py_or, dict_get. split.
  - destruct (truthy (default PyNone (d !! "id"))) eqn:Hid; simpl.
    + rewrite Hid. simpl. split; [done | by intros []].
    + rewrite negb_true_iff. tauto.
  - intros [-> ->]. done.
Qed.

(** C10: the list of datasources to retry produced by a round is a
    subsequence of the input list: its elements occur in the input, in the
    same relative order. *)
Theorem retry_set_is_subsequence pk ch l w :
  retry_set pk ch l w `sublist_of` l ∧
  ∀ d, d ∈ retry_set pk ch l w → d ∈ l.
Proof.
  pose proof (retry_set_sublist pk ch l w) as Hs.
  split; [done|]. intros d. by apply (sublist_subseteq _ _ Hs).
Qed.

(** ** Further properties of the cache key, the scheduling task and the
    worker *)

(** The worker in its three ways through the guards. *)
Lemma worker_superseded_run current_task_id pk dl w :
  superseded
    (cached_value <$> cache w !! get_cache_key_create_contact_points_for_datasource pk)
    current_task_id = true →
  create_contact_points_for_datasource current_task_id pk dl w =
  (tt, record (CacheGet (get_cache_key_create_contact_points_for_datasource pk)) w).
Proof.
  intros Hs. unfold create_contact_points_for_datasource, cache_get, emit, step.
  rewrite !bind_run. simpl. by rewrite Hs.
Qed.

Lemma worker_missing_run current_task_id pk dl w :
  superseded
    (cached_value <$> cache w !! get_cache_key_create_contact_points_for_datasource pk)
    current_task_id = false →
  channels w !! pk = None →
  create_contact_points_for_datasource current_task_id pk dl w =
  (tt, record (Log DEBUG)
         (record (ChannelLookup pk)
            (record (CacheGet (get_cache_key_create_contact_points_for_datasource pk)) w))).
Proof.
  intros Hf Hch. unfold create_contact_points_for_datasource, cache_get,
    objects_filter_first, logger, emit, step.
  rewrite !bind_run. simpl. rewrite Hf. rewrite !bind_run. simpl. by rewrite Hch.
Qed.

Lemma superseded_false_iff (cached : option string) (current_task_id : string) :
  superseded cached current_task_id = false ↔
  cached = None ∨ cached = Some current_task_id.
Proof.
  destruct cached as [c|]; simpl.
  - rewrite bool_decide_eq_false. split.
    + intros H. right. f_equal. symmetry. by apply dec_stable.
    + intros [|[= ->]]; [done | tauto].
  - split; auto.
Qed.

Lemma cache_key_inj (a b : Z) :
  get_cache_key_create_contact_points_for_datasource a =
  get_cache_key_create_contact_points_for_datasource b → a = b.
Proof.
  unfold get_cache_key_create_contact_points_for_datasource. cbv zeta.
  intros H. by repeat apply (inj _) in H.
Qed.

(** X1: the cache key determines the integration: two integrations have
    the same key only when they are the same integration. *)
Theorem cache_key_injective (a b : Z) :
  get_cache_key_create_contact_points_for_datasource a =
  get_cache_key_create_contact_points_for_datasource b ↔ a = b.
Proof. split; [apply cache_key_inj | by intros ->]. Qed.

(** X2: the scheduling task for one integration leaves the task id cached
    for any other integration as it was; it does not touch the table or
    the Grafana side, and it queues exactly one task. *)
Theorem schedule_leaves_other_integrations pk pk' l w :
  pk' ≠ pk →
  let w' := exec (schedule_create_contact_points_for_datasource pk l) w in
  cache w' !! get_cache_key_create_contact_points_for_datasource pk' =
    cache w !! get_cache_key_create_contact_points_for_datasource pk' ∧
  channels w' = channels w ∧
  grafana w' = grafana w ∧
  scheduled w' = scheduled w ++ [new_task pk l 3 w].
Proof.
  intros Hne w'. subst w'. unfold exec. rewrite schedule_run. simpl.
  split_and!; try done.
  apply lookup_insert_ne. intros Hk. by apply cache_key_inj in Hk.
Qed.

(** X3: of two scheduling calls for the same integration the second one
    is authoritative.  Both tasks are queued, in order; when the queue gave
    them different ids, the worker of the first task finds the id of the
    second in the cache and returns after the cache read, and the worker of
    the second task is not superseded. *)
Theorem second_schedule_supersedes_first pk lA lB w :
  let wA := exec (schedule_create_contact_points_for_datasource pk lA) w in
  let tA := new_task pk lA 3 w in
  let wB := exec (schedule_create_contact_points_for_datasource pk lB) wA in
  let tB := new_task pk lB 3 wA in
  task_id tA ≠ task_id tB →
  scheduled wB = scheduled w ++ [tA; tB] ∧
  run_task tA wB =
    (tt, record (CacheGet (get_cache_key_create_contact_points_for_datasource pk)) wB) ∧
  superseded
    (cached_value <$> cache wB !! get_cache_key_create_contact_points_for_datasource pk)
    (task_id tB) = false.
Proof.
  intros wA tA wB tB Hne.
  assert (HcB : cached_value <$>
      cache wB !! get_cache_key_create_contact_points_for_datasource pk
      = Some (task_id tB)) by apply schedule_stores_task_id.
  split_and!.
  - unfold wB, wA, exec. rewrite !schedule_run. simpl. by rewrite <- app_assoc.
  - unfold run_task. apply worker_superseded_run. rewrite HcB. simpl.
    by apply bool_decide_eq_true.
  - rewrite HcB. simpl. apply bool_decide_eq_false. tauto.
Qed.

(** X4: the worker gets past the fencing check, that is it looks the
    integration up, exactly when the cache holds no task id for the
    integration or holds the worker's own id. *)
Theorem lookup_iff_not_superseded current_task_id pk dl w :
  ChannelLookup pk ∈ emitted (create_contact_points_for_datasource current_task_id pk dl) w
  ↔
  cached_value <$> cache w !! get_cache_key_create_contact_points_for_datasource pk = None ∨
  cached_value <$> cache w !! get_cache_key_create_contact_points_for_datasource pk
    = Some current_task_id.
Proof.
  rewrite <- superseded_false_iff.
  destruct (superseded _ current_task_id) eqn:Hs.
  - assert (He : emitted (create_contact_points_for_datasource current_task_id pk dl) w
        = [CacheGet (get_cache_key_create_contact_points_for_datasource pk)]).
    { apply emitted_extends. by rewrite worker_superseded_run. }
    rewrite He, list_elem_of_singleton. split; discriminate.
  - split; [done|]. intros _.
    destruct (channels w !! pk) as [ch|] eqn:Hch.
    + destruct (worker_outcome current_task_id pk dl w ch Hs Hch) as (t & _ & H).
      cbv zeta in H. destruct (retry_set pk ch dl w); destruct H as (-> & _);
        apply elem_of_app; left; apply list_elem_of_further, list_elem_of_here.
    + assert (He : emitted (create_contact_points_for_datasource current_task_id pk dl) w
          = [CacheGet (get_cache_key_create_contact_points_for_datasource pk);
             ChannelLookup pk; Log DEBUG]).
      { apply emitted_extends. rewrite worker_missing_run by done. simpl.
        by rewrite <- !app_assoc. }
      rewrite He. apply list_elem_of_further, list_elem_of_here.
Qed.

(** What the worker can have done to the cache and the table, whatever way
    it took. *)
Lemma worker_writes current_task_id pk dl w :
  let w' := exec (create_contact_points_for_datasource current_task_id pk dl) w in
  (cache w' = cache w ∨
   ∃ e, cache w' = <[get_cache_key_create_contact_points_for_datasource pk := e]> (cache w)) ∧
  (channels w' = channels w ∨
   channels w' = alter (set_is_finished_alerting_setup true) pk (channels w)).
Proof.
  intros w'. subst w'. unfold exec.
  destruct (superseded
    (cached_value <$> cache w !! get_cache_key_create_contact_points_for_datasource pk)
    current_task_id) eqn:Hs.
  - rewrite worker_superseded_run by done. simpl. auto.
  - destruct (channels w !! pk) as [ch|] eqn:Hch.
    + destruct (worker_outcome current_task_id pk dl w ch Hs Hch) as (t & _ & H).
      cbv zeta in H. unfold exec in H.
      destruct (retry_set pk ch dl w); destruct H as (_ & -> & _ & ->); eauto.
    + rewrite worker_missing_run by done. simpl. auto.
Qed.

(** X5: a worker of one integration leaves the row and the cached task id
    of every other integration as they were. *)
Theorem worker_leaves_other_integrations current_task_id pk pk' dl w :
  pk' ≠ pk →
  let w' := exec (create_contact_points_for_datasource current_task_id pk dl) w in
  channels w' !! pk' = channels w !! pk' ∧
  cache w' !! get_cache_key_create_contact_points_for_datasource pk' =
    cache w !! get_cache_key_create_contact_points_for_datasource pk'.
Proof.
  intros Hne w'.
  destruct (worker_writes current_task_id pk dl w) as [Hc Hch]. fold w' in Hc, Hch.
  split.
  - destruct Hch as [-> | ->]; [done|]. by apply lookup_alter_ne.
  - destruct Hc as [-> | [e ->]]; [done|].
    apply lookup_insert_ne. intros Hk. by apply cache_key_inj in Hk.
Qed.

(** X6: the worker never adds or removes a row, never changes the
    organization of a row, and never takes a completion flag back: a row
    whose flag is true before the worker runs has it true afterwards. *)
Theorem worker_keeps_rows_and_flags current_task_id pk dl w pk' :
  let w' := exec (create_contact_points_for_datasource current_task_id pk dl) w in
  organization <$> channels w' !! pk' = organization <$> channels w !! pk' ∧
  (is_finished_alerting_setup <$> channels w !! pk' = Some true →
   is_finished_alerting_setup <$> channels w' !! pk' = Some true).
Proof.
  intros w'.
  destruct (worker_writes current_task_id pk dl w) as [_ Hch]. fold w' in Hch.
  destruct Hch as [-> | ->]; [done|].
  destruct (decide (pk' = pk)) as [-> | Hne].
  - rewrite lookup_alter_eq. destruct (channels w !! pk) as [c|]; simpl; [|done].
    split; done.
  - by rewrite lookup_alter_ne.
Qed.

(** X7: with an empty datasource list a worker that is not superseded and
    finds its integration calls nothing on the Grafana side: it reads the
    cache, looks the integration up and saves the completion flag as true. *)
Theorem empty_list_completes current_task_id pk w ch :
  superseded
    (cached_value <$> cache w !! get_cache_key_create_contact_points_for_datasource pk)
    current_task_id = false →
  channels w !! pk = Some ch →
  create_contact_points_for_datasource current_task_id pk [] w =
  (tt, World (cache w)
         (<[pk := set_is_finished_alerting_setup true ch]> (channels w))
         (scheduled w) (grafana w)
         (trace w ++
          [CacheGet (get_cache_key_create_contact_points_for_datasource pk);
           ChannelLookup pk;
           ChannelSave pk ["is_finished_alerting_setup"]])).
Proof.
  intros Hf Hch. rewrite (worker_run _ _ _ _ _ Hf Hch). simpl.
  unfold save_is_finished_alerting_setup, emit, step, record.
  rewrite !bind_run. simpl. rewrite <- !app_assoc. simpl. do 2 f_equal.
  apply map_eq. intros i. destruct (decide (i = pk)) as [-> | Hne].
  - by rewrite lookup_alter_eq, lookup_insert_eq, Hch.
  - by rewrite lookup_alter_ne, lookup_insert_ne.
Qed.

(** The calls of one iteration: one config fetch, at most one creation. *)
Lemma loop_body_counts pk ch cl d acc w :
  ∃ t, trace (loop_body pk ch cl d acc w).2 = trace w ++ t ∧
       count_events is_config_fetch t = 1%nat ∧
       (count_events is_create_call t ≤ 1)%nat.
Proof.
  unfold loop_body. run_primitives.
  destruct (alerting_config_with_respect_to_grafana_version _ _ _ _ _ _ _ _)
    as [[cfg resp] b]; simpl.
  destruct cfg as [c|]; run_primitives.
  - destruct (create_contact_point _ _ _ _) as [[cp|] b']; run_primitives;
      rewrite <- ?app_assoc; eexists; (split; [reflexivity|]); split; simpl; done.
  - destruct (py_eq _ HTTP_404_NOT_FOUND); run_primitives.
    + destruct (alerting_config_with_respect_to_grafana_version _ _ _ _ _ _ _ _)
        as [[cfg' resp'] b']; simpl.
      destruct (create_contact_point _ _ _ _) as [[cp|] b'']; run_primitives;
        rewrite <- ?app_assoc; eexists; (split; [reflexivity|]); split; simpl; done.
    + destruct (py_eq _ HTTP_400_BAD_REQUEST); run_primitives;
        rewrite <- ?app_assoc; eexists; (split; [reflexivity|]); split; simpl;
        unfold count_events; simpl; lia.
Qed.

Lemma for_datasources_counts pk ch cl l acc w :
  ∃ t, trace (for_datasources pk ch cl l acc w).2 = trace w ++ t ∧
       count_events is_config_fetch t = length l ∧
       (count_events is_create_call t ≤ length l)%nat.
Proof.
  revert acc w. induction l as [|d l IH]; intros acc w.
  - exists []. simpl. split_and!; try done. by rewrite app_nil_r.
  - rewrite for_datasources_cons.
    destruct (loop_body_counts pk ch cl d acc w) as (t1 & Ht1 & Hf1 & Hc1).
    destruct (IH (loop_body pk ch cl d acc w).1 (loop_body pk ch cl d acc w).2)
      as (t2 & Ht2 & Hf2 & Hc2).
    exists (t1 ++ t2). rewrite !count_events_app, Ht2, Ht1, Hf1, Hf2. simpl.
    split_and!; [by rewrite app_assoc | done | lia].
Qed.

(** The log of a round that runs its loop: the loop's calls, then one of
    the two ways to end. *)
Lemma worker_trace current_task_id pk dl w ch :
  superseded
    (cached_value <$> cache w !! get_cache_key_create_contact_points_for_datasource pk)
    current_task_id = false →
  channels w !! pk = Some ch →
  let key := get_cache_key_create_contact_points_for_datasource pk in
  let w0 := record (ChannelLookup pk) (record (CacheGet key) w) in
  ∃ tail,
    trace (exec (create_contact_points_for_datasource current_task_id pk dl) w) =
      trace (for_datasources pk ch (make_client ch) dl [] w0).2 ++ tail ∧
    (tail = [ChannelSave pk ["is_finished_alerting_setup"]] ∨
     ∃ l tid, tail = [ApplyAsync pk l 3; CacheSet key tid 600]).
Proof.
  intros Hf Hch key w0. unfold exec. rewrite (worker_run _ _ _ _ _ Hf Hch).
  cbv zeta. fold key w0.
  destruct (for_datasources pk ch (make_client ch) dl [] w0) as [[|d r] w1];
    cbn [fst snd].
  - unfold save_is_finished_alerting_setup, emit, step, record.
    rewrite !bind_run. simpl. eexists. split; [reflexivity | by left].
  - rewrite schedule_run. simpl. eexists. split; [reflexivity|]. right. eauto.
Qed.

Lemma worker_call_counts current_task_id pk dl w ch :
  superseded
    (cached_value <$> cache w !! get_cache_key_create_contact_points_for_datasource pk)
    current_task_id = false →
  channels w !! pk = Some ch →
  let run := create_contact_points_for_datasource current_task_id pk dl in
  count_events is_config_fetch (emitted run w) = length dl ∧
  (count_events is_create_call (emitted run w) ≤ length dl)%nat.
Proof.
  intros Hf Hch run.
  destruct (worker_trace current_task_id pk dl w ch Hf Hch) as (tail & Ht & Htail).
  cbv zeta in Ht.
  destruct (for_datasources_counts pk ch (make_client ch) dl []
              (record (ChannelLookup pk)
                 (record (CacheGet (get_cache_key_create_contact_points_for_datasource pk)) w)))
    as (t & Hlp & Hfetch & Hcreate).
  rewrite Hlp in Ht. simpl in Ht.
  assert (He : emitted run w =
      [CacheGet (get_cache_key_create_contact_points_for_datasource pk);
       ChannelLookup pk] ++ t ++ tail).
  { apply emitted_extends. unfold exec in Ht. unfold run. rewrite Ht.
    by rewrite <- !app_assoc. }
  rewrite He, !count_events_app, Hfetch.
  assert (count_events is_config_fetch tail = 0%nat ∧
          count_events is_create_call tail = 0%nat) as [-> ->]
    by (destruct Htail as [-> | (l & tid & ->)]; done).
  change (count_events is_config_fetch
            [CacheGet (get_cache_key_create_contact_points_for_datasource pk);
             ChannelLookup pk]) with 0%nat.
  change (count_events is_create_call
            [CacheGet (get_cache_key_create_contact_points_for_datasource pk);
             ChannelLookup pk]) with 0%nat.
  lia.
Qed.

(** X8: a round that runs its loop makes exactly one config fetch for each
    entry of its input list, and at most one contact point creation for
    each. *)
Theorem one_fetch_per_datasource current_task_id pk dl w ch :
  superseded
    (cached_value <$> cache w !! get_cache_key_create_contact_points_for_datasource pk)
    current_task_id = false →
  channels w !! pk = Some ch →
  let run := create_contact_points_for_datasource current_task_id pk dl in
  count_events is_config_fetch (emitted run w) = length dl ∧
  (count_events is_create_call (emitted run w) ≤ length dl)%nat.
Proof. apply worker_call_counts. Qed.

Lemma loop_body_config pk ch d acc w c :
  let f := fetch_config pk ch d w in
  let cr := create_contact_point pk ch d f.2 in
  f.1.1 = Some c →
  loop_body pk ch (make_client ch) d acc w =
  (match cr.1 with None => acc ++ [d] | Some _ => acc end,
   World (cache w) (channels w) (scheduled w) cr.2
     (trace w ++
      [config_call_event d get_alerting_config; CreateContactPoint d] ++
      match cr.1 with None => [Log WARNING] | Some _ => [] end)).
Proof.
  intros f cr. subst f cr.
  unfold fetch_config, config_call_event, loop_body.
  intros Hcfg. run_primitives. rewrite Hcfg. run_primitives.
  destruct (create_contact_point _ _ _ _).1; run_primitives;
    by rewrite <- !app_assoc.
Qed.

(** X9: for a datasource whose config fetch gives a config, the iteration
    goes straight from the fetch to the contact point creation, without an
    initialization call, and appends the datasource to the list to retry
    exactly when the creation returns nothing. *)
Theorem config_present_creates pk ch d acc w c :
  let f := fetch_config pk ch d w in
  let cr := create_contact_point pk ch d f.2 in
  let it := loop_body pk ch (make_client ch) d acc in
  f.1.1 = Some c →
  emitted it w =
    [config_call_event d get_alerting_config; CreateContactPoint d] ++
    match cr.1 with None => [Log WARNING] | Some _ => [] end ∧
  ((it w).1 = acc ++ [d] ↔ cr.1 = None) ∧
  (cr.1 ≠ None → (it w).1 = acc) ∧
  grafana (it w).2 = cr.2.
Proof.
  intros f cr it Hcfg.
  pose proof (loop_body_config pk ch d acc w c Hcfg) as Hit. fold f cr it in Hit.
  split_and!.
  - apply emitted_extends. by rewrite Hit.
  - rewrite Hit. simpl. destruct cr.1; split; try done.
    intros Heq. apply (f_equal length) in Heq. rewrite length_app in Heq.
    simpl in Heq. lia.
  - rewrite Hit. simpl. by destruct cr.1.
  - by rewrite Hit.
Qed.

(** X10: once a round has rescheduled, its own attempt is superseded.
    When the queue gave the new task an id different from the worker's, a
    further run of the worker under its old id returns after the cache
    read, while the new task, which is the last one queued, is not
    superseded. *)
Theorem reschedule_supersedes_own_attempt current_task_id pk dl w ch :
  superseded
    (cached_value <$> cache w !! get_cache_key_create_contact_points_for_datasource pk)
    current_task_id = false →
  channels w !! pk = Some ch →
  retry_set pk ch dl w ≠ [] →
  let run := create_contact_points_for_datasource current_task_id pk dl in
  let w' := exec run w in
  let t := new_task pk (retry_set pk ch dl w) 3 w in
  task_id t ≠ current_task_id →
  run w' =
    (tt, record (CacheGet (get_cache_key_create_contact_points_for_datasource pk)) w') ∧
  last (scheduled w') = Some t ∧
  superseded
    (cached_value <$> cache w' !! get_cache_key_create_contact_points_for_datasource pk)
    (task_id t) = false.
Proof.
  intros Hf Hch Hr run w' t. subst t.
  destruct (worker_outcome current_task_id pk dl w ch Hf Hch) as (tr & _ & H).
  cbv zeta in H. fold run w' in H.
  destruct (retry_set pk ch dl w) as [|d r]; [done|]. intros Hne.
  destruct H as (_ & _ & Hs & Hc).
  assert (Hcached : cached_value <$>
      cache w' !! get_cache_key_create_contact_points_for_datasource pk
      = Some (task_id (new_task pk (d :: r) 3 w)))
    by (by rewrite Hc, lookup_insert_eq).
  split_and!.
  - apply worker_superseded_run. rewrite Hcached. simpl.
    apply bool_decide_eq_true. intros Heq. apply Hne. by rewrite Heq.
  - by rewrite Hs, last_snoc.
  - rewrite Hcached. simpl. apply bool_decide_eq_false. tauto.
Qed.

(** The list built so far has no influence on an iteration or on the
    loop: they only append to it. *)
Lemma loop_body_acc pk ch cl d acc w :
  loop_body pk ch cl d acc w =
  (acc ++ (loop_body pk ch cl d [] w).1, (loop_body pk ch cl d [] w).2).
Proof.
  unfold loop_body. run_primitives.
  destruct (alerting_config_with_respect_to_grafana_version _ _ _ _ _ _ _ _)
    as [[cfg resp] b]; simpl.
  destruct cfg as [c|]; run_primitives.
  - destruct (create_contact_point _ _ _ _) as [[cp|] b']; run_primitives;
      by rewrite ?app_nil_r.
  - destruct (py_eq _ HTTP_404_NOT_FOUND); run_primitives.
    + destruct (alerting_config_with_respect_to_grafana_version _ _ _ _ _ _ _ _)
        as [[cfg' resp'] b']; simpl.
      destruct (create_contact_point _ _ _ _) as [[cp|] b'']; run_primitives;
        by rewrite ?app_nil_r.
    + destruct (py_eq _ HTTP_400_BAD_REQUEST); run_primitives;
        by rewrite ?app_nil_r.
Qed.

Lemma for_datasources_acc pk ch cl l acc w :
  for_datasources pk ch cl l acc w =
  (acc ++ (for_datasources pk ch cl l [] w).1, (for_datasources pk ch cl l [] w).2).
Proof.
  revert acc w. induction l as [|d l IH]; intros acc w.
  - simpl. by rewrite app_nil_r.
  - rewrite !for_datasources_cons.
    rewrite (loop_body_acc pk ch cl d acc w). cbn [fst snd].
    rewrite (IH (acc ++ _)), (IH (loop_body pk ch cl d [] w).1). cbn [fst snd].
    by rewrite app_assoc.
Qed.

(** X11: the list to retry of a round over [l1 ++ l2] is the list of a
    round over [l1] followed by the list of a round over [l2] that starts
    where the first one left the Grafana side; each entry is judged on its
    own answers, whatever was appended before it. *)
Theorem retry_set_app pk ch l1 l2 w :
  retry_set pk ch (l1 ++ l2) w =
  retry_set pk ch l1 w ++ retry_set pk ch l2 (reached pk ch l1 w).2.
Proof.
  unfold retry_set, reached. rewrite for_datasources_app.
  by rewrite for_datasources_acc.
Qed.

(** X12: the round a worker reschedules really runs, and over the list to
    retry only.  In the world the worker leaves, the worker of the task it
    queued gets past the fencing check and the lookup, makes exactly one
    config fetch for each datasource of that list, and ends with a list to
    retry that is again drawn, in order, from the first round's input. *)
Theorem rescheduled_round_runs_retry_list current_task_id pk dl w ch :
  superseded
    (cached_value <$> cache w !! get_cache_key_create_contact_points_for_datasource pk)
    current_task_id = false →
  channels w !! pk = Some ch →
  retry_set pk ch dl w ≠ [] →
  let w' := exec (create_contact_points_for_datasource current_task_id pk dl) w in
  let t := new_task pk (retry_set pk ch dl w) 3 w in
  last (scheduled w') = Some t ∧
  ChannelLookup pk ∈ emitted (run_task t) w' ∧
  count_events is_config_fetch (emitted (run_task t) w') =
    length (retry_set pk ch dl w) ∧
  retry_set pk ch (retry_set pk ch dl w) w' `sublist_of` dl.
Proof.
  intros Hf Hch Hr w' t. subst t.
  destruct (worker_outcome current_task_id pk dl w ch Hf Hch) as (tr & _ & H).
  cbv zeta in H. fold w' in H.
  pose proof (retry_set_sublist pk ch dl w) as Hsub.
  destruct (retry_set pk ch dl w) as [|d r]; [done|].
  destruct H as (_ & Hchs & Hs & Hc).
  set (t := new_task pk (d :: r) 3 w) in *.
  assert (Hf' : superseded
      (cached_value <$> cache w' !! get_cache_key_create_contact_points_for_datasource pk)
      (task_id t) = false).
  { rewrite Hc, lookup_insert_eq. simpl. apply bool_decide_eq_false. tauto. }
  assert (Hch' : channels w' !! pk = Some ch) by (by rewrite Hchs).
  split_and!.
  - by rewrite Hs, last_snoc.
  - destruct (worker_outcome (task_id t) pk (d :: r) w' ch Hf' Hch') as (t' & _ & H).
    cbv zeta in H.
    change (run_task t) with (create_contact_points_for_datasource (task_id t) pk (d :: r)).
    destruct (retry_set pk ch (d :: r) w'); destruct H as (-> & _);
      apply elem_of_app; left; apply list_elem_of_further, list_elem_of_here.
  - exact (proj1 (worker_call_counts (task_id t) pk (d :: r) w' ch Hf' Hch')).
  - etrans; [apply retry_set_sublist | done].
Qed.

End Proofs.

(** ** The theorems at concrete inputs *)

Lemma superseded_worker_is_noop_witness :
  cached_value <$>
    cache superseded_world !! get_cache_key_create_contact_points_for_datasource 42
    = Some "task-1" ∧
  "task-1" ≠ "task-0" ∧
  emitted (create_contact_points_for_datasource "task-0" 42 [ds_uid "a"])
    superseded_world
  = [CacheGet "create_contact_points_for_datasource_42"].
Proof.
  split; [vm_compute; reflexivity|]. split; [discriminate|].
  destruct (superseded_worker_is_noop (Ext := scripted) "task-0" 42 [ds_uid "a"]
              superseded_world "task-1"
              ltac:(vm_compute; reflexivity) ltac:(discriminate))
    as (_ & H & _).
  exact H.
Defined.

Lemma worker_terminal_action_witness :
  superseded
    (cached_value <$>
       cache demo_world !! get_cache_key_create_contact_points_for_datasource 42)
    "task-0" = false ∧
  channels demo_world !! 42 = Some demo_channel ∧
  scheduled
    (exec (create_contact_points_for_datasource "task-0" 42
             [ds_uid "a"; ds_uid "stuck"]) demo_world)
  = scheduled demo_world ++
    [new_task 42 (retry_set 42 demo_channel [ds_uid "a"; ds_uid "stuck"] demo_world)
       3 demo_world].
Proof.
  split; [vm_compute; reflexivity|]. split; [vm_compute; reflexivity|].
  destruct (worker_terminal_action (Ext := scripted) "task-0" 42
              [ds_uid "a"; ds_uid "stuck"] demo_world demo_channel
              ltac:(vm_compute; reflexivity) ltac:(vm_compute; reflexivity))
    as (_ & H & _).
  destruct H as (_ & _ & _ & _ & H); [vm_compute; discriminate | exact H].
Defined.

Lemma bad_request_is_skipped_witness :
  (fetch_config (Ext := scripted) 42 demo_channel (ds_uid "bad")
     (reached 42 demo_channel [ds_uid "a"] demo_world).2).1.1 = None ∧
  py_eq
    (status_code
       (fetch_config (Ext := scripted) 42 demo_channel (ds_uid "bad")
          (reached 42 demo_channel [ds_uid "a"] demo_world).2).1.2)
    HTTP_400_BAD_REQUEST = true ∧
  retry_set (Ext := scripted) 42 demo_channel
    ([ds_uid "a"] ++ ds_uid "bad" :: [ds_uid "stuck"]) demo_world
  `sublist_of` [ds_uid "a"] ++ [ds_uid "stuck"].
Proof.
  split; [vm_compute; reflexivity|]. split; [vm_compute; reflexivity|].
  destruct (bad_request_is_skipped (Ext := scripted) 42 demo_channel
              [ds_uid "a"] (ds_uid "bad") [ds_uid "stuck"] demo_world
              ltac:(vm_compute; reflexivity) ltac:(vm_compute; reflexivity))
    as (_ & _ & _ & H & _).
  exact H.
Defined.

Lemma not_found_initializes_then_creates_witness :
  (fetch_config (Ext := scripted) 42 demo_channel (ds_uid "missing")
     (reached 42 demo_channel [] demo_world).2).1.1 = None ∧
  py_eq
    (status_code
       (fetch_config (Ext := scripted) 42 demo_channel (ds_uid "missing")
          (reached 42 demo_channel [] demo_world).2).1.2)
    HTTP_404_NOT_FOUND = true ∧
  emitted
    (loop_body (Ext := scripted) 42 demo_channel (make_client demo_channel)
       (ds_uid "missing") (reached 42 demo_channel [] demo_world).1)
    (reached 42 demo_channel [] demo_world).2
  = [config_call_event (ds_uid "missing") get_alerting_config; Log DEBUG;
     config_call_event (ds_uid "missing") get_alertmanager_status_with_config;
     CreateContactPoint (ds_uid "missing")].
Proof.
  split; [vm_compute; reflexivity|]. split; [vm_compute; reflexivity|].
  destruct (not_found_initializes_then_creates (Ext := scripted) 42 demo_channel
              [] (ds_uid "missing") [] demo_world
              ltac:(vm_compute; reflexivity) ltac:(vm_compute; reflexivity))
    as (H & _).
  exact H.
Defined.

Lemma other_code_is_retried_witness :
  (fetch_config (Ext := scripted) 42 demo_channel (ds_uid "down")
     (reached 42 demo_channel [ds_uid "a"] demo_world).2).1.1 = None ∧
  py_eq
    (status_code
       (fetch_config (Ext := scripted) 42 demo_channel (ds_uid "down")
          (reached 42 demo_channel [ds_uid "a"] demo_world).2).1.2)
    HTTP_404_NOT_FOUND = false ∧
  py_eq
    (status_code
       (fetch_config (Ext := scripted) 42 demo_channel (ds_uid "down")
          (reached 42 demo_channel [ds_uid "a"] demo_world).2).1.2)
    HTTP_400_BAD_REQUEST = false ∧
  ds_uid "down" ∈
    retry_set (Ext := scripted) 42 demo_channel
      ([ds_uid "a"] ++ ds_uid "down" :: [ds_uid "bad"]) demo_world.
Proof.
  split; [vm_compute; reflexivity|]. split; [vm_compute; reflexivity|].
  split; [vm_compute; reflexivity|].
  destruct (other_code_is_retried (Ext := scripted) 42 demo_channel
              [ds_uid "a"] (ds_uid "down") [ds_uid "bad"] demo_world
              ltac:(vm_compute; reflexivity) ltac:(vm_compute; reflexivity)
              ltac:(vm_compute; reflexivity))
    as (_ & _ & _ & H).
  exact H.
Defined.

Lemma missing_integration_is_left_alone_witness :
  superseded
    (cached_value <$>
       cache demo_world !! get_cache_key_create_contact_points_for_datasource 7)
    "task-0" = false ∧
  channels demo_world !! 7 = None ∧
  emitted (create_contact_points_for_datasource "task-0" 7 [ds_uid "a"]) demo_world
  = [CacheGet "create_contact_points_for_datasource_7"; ChannelLookup 7; Log DEBUG].
Proof.
  split; [vm_compute; reflexivity|]. split; [vm_compute; reflexivity|].
  destruct (missing_integration_is_left_alone (Ext := scripted) "task-0" 7
              [ds_uid "a"] demo_world
              ltac:(vm_compute; reflexivity) ltac:(vm_compute; reflexivity))
    as (H & _).
  exact H.
Defined.

Lemma retry_set_no_duplicates_witness :
  NoDup [ds_uid "stuck"; ds_uid "down"] ∧
  NoDup (retry_set (Ext := scripted) 42 demo_channel
           [ds_uid "stuck"; ds_uid "down"] demo_world).
Proof.
  assert (H : NoDup [ds_uid "stuck"; ds_uid "down"])
    by (apply (bool_decide_unpack (NoDup [ds_uid "stuck"; ds_uid "down"]));
        vm_compute; exact I).
  split; [exact H|].
  exact (retry_set_no_duplicates (Ext := scripted) 42 demo_channel
           [ds_uid "stuck"; ds_uid "down"] demo_world H).
Defined.

(** C7 as stated fails: an input list that holds the same record twice,
    both times without a contact point being created, gives a list to
    retry that holds it twice. *)
Lemma retry_set_repeats_repeated_input :
  retry_set (Ext := scripted) 42 demo_channel
    [ds_uid "stuck"; ds_uid "stuck"] demo_world
  = [ds_uid "stuck"; ds_uid "stuck"] ∧
  ¬ NoDup (retry_set (Ext := scripted) 42 demo_channel
             [ds_uid "stuck"; ds_uid "stuck"] demo_world).
Proof.
  assert (E : retry_set (Ext := scripted) 42 demo_channel
                [ds_uid "stuck"; ds_uid "stuck"] demo_world
              = [ds_uid "stuck"; ds_uid "stuck"])
    by (vm_compute; reflexivity).
  split; [exact E|]. rewrite E. intros [Hn _]%NoDup_cons. apply Hn. left.
Qed.

(** C8 as stated fails: a record whose id is present and equal to 0 is
    classified as the built-in datasource. *)
Lemma zero_id_is_classified_builtin :
  ¬ (is_grafana_datasource (ds_id 0) = true ↔
     ds_id 0 !! "id" = None ∧ ds_id 0 !! "uid" = None).
Proof.
  intros [H _]. destruct (H eq_refl) as [Hid _].
  vm_compute in Hid. discriminate.
Qed.

(** ** Scenarios

    Two scheduling calls for integration 42 followed by the two queued
    workers: the first worker finds the id of the second in the cache and
    does nothing; the second runs its loop, finds one datasource without a
    contact point and schedules a third task for it alone. *)

Example first_worker_is_superseded :
  let w1 := exec (schedule_create_contact_points_for_datasource (Ext := scripted)
                    42 [ds_uid "a"]) demo_world in
  let w2 := exec (schedule_create_contact_points_for_datasource 42
                    [ds_uid "a"; ds_uid "bad"; ds_uid "stuck"]) w1 in
  match scheduled w2 with
  | [t1; t2] =>
      emitted (run_task t1) w2 = [CacheGet "create_contact_points_for_datasource_42"] ∧
      scheduled (exec (run_task t2) w2) =
        [t1; t2;
         {| task_id := "task-2"; task_channel_id := 42;
            task_datasources := [ds_uid "stuck"]; task_countdown := 3 |}] ∧
      is_finished_alerting_setup <$> channels (exec (run_task t2) w2) !! 42
        = Some false
  | _ => False
  end.
Proof. vm_compute. by split_and!. Qed.

(** A round in which every datasource is either served or answered 400
    completes the setup and schedules nothing. *)
Example round_with_bad_request_completes :
  let w := exec (create_contact_points_for_datasource (Ext := scripted) "task-0" 42
                   [ds_uid "a"; ds_uid "bad"; ds_uid "missing"]) demo_world in
  scheduled w = [] ∧
  is_finished_alerting_setup <$> channels w !! 42 = Some true ∧
  count_events is_channel_save (trace w) = 1%nat.
Proof. vm_compute. by split_and!. Qed.

(** ** The further properties at concrete inputs *)

Lemma schedule_leaves_other_integrations_witness :
  43 ≠ 42 ∧
  cache (exec (schedule_create_contact_points_for_datasource 43 [ds_uid "a"])
           superseded_world)
    !! get_cache_key_create_contact_points_for_datasource 42
  = cache superseded_world !! get_cache_key_create_contact_points_for_datasource 42.
Proof.
  split; [discriminate|].
  destruct (schedule_leaves_other_integrations (Ext := scripted) 43 42 [ds_uid "a"]
              superseded_world ltac:(discriminate))
    as (H & _).
  exact H.
Defined.

Lemma second_schedule_supersedes_first_witness :
  let wA := exec (schedule_create_contact_points_for_datasource (Ext := scripted)
                    42 [ds_uid "a"]) demo_world in
  let tA := new_task 42 [ds_uid "a"] 3 demo_world in
  let wB := exec (schedule_create_contact_points_for_datasource 42 [ds_uid "stuck"]) wA in
  let tB := new_task 42 [ds_uid "stuck"] 3 wA in
  task_id tA ≠ task_id tB ∧
  run_task tA wB =
    (tt, record (CacheGet (get_cache_key_create_contact_points_for_datasource 42)) wB).
Proof.
  intros wA tA wB tB.
  assert (Hne : task_id tA ≠ task_id tB) by (vm_compute; discriminate).
  split; [exact Hne|].
  destruct (second_schedule_supersedes_first (Ext := scripted) 42
              [ds_uid "a"] [ds_uid "stuck"] demo_world Hne)
    as (_ & H & _).
  exact H.
Defined.

Lemma worker_leaves_other_integrations_witness :
  42 ≠ 43 ∧
  channels (exec (create_contact_points_for_datasource "task-0" 43 [ds_uid "a"])
              finished_world) !! 42
  = channels finished_world !! 42.
Proof.
  split; [discriminate|].
  destruct (worker_leaves_other_integrations (Ext := scripted) "task-0" 43 42
              [ds_uid "a"] finished_world ltac:(discriminate))
    as (H & _).
  exact H.
Defined.

Lemma worker_keeps_rows_and_flags_witness :
  is_finished_alerting_setup <$> channels finished_world !! 42 = Some true ∧
  is_finished_alerting_setup <$>
    channels (exec (create_contact_points_for_datasource "task-0" 42 [ds_uid "stuck"])
                finished_world) !! 42
  = Some true.
Proof.
  assert (H : is_finished_alerting_setup <$> channels finished_world !! 42 = Some true)
    by (vm_compute; reflexivity).
  split; [exact H|].
  exact (proj2 (worker_keeps_rows_and_flags (Ext := scripted) "task-0" 42
                  [ds_uid "stuck"] finished_world 42) H).
Defined.

Lemma empty_list_completes_witness :
  superseded
    (cached_value <$>
       cache demo_world !! get_cache_key_create_contact_points_for_datasource 42)
    "task-0" = false ∧
  channels demo_world !! 42 = Some demo_channel ∧
  create_contact_points_for_datasource (Ext := scripted) "task-0" 42 [] demo_world =
  (tt, World (cache demo_world)
         (<[42 := set_is_finished_alerting_setup true demo_channel]> (channels demo_world))
         (scheduled demo_world) (grafana demo_world)
         (trace demo_world ++
          [CacheGet (get_cache_key_create_contact_points_for_datasource 42);
           ChannelLookup 42;
           ChannelSave 42 ["is_finished_alerting_setup"]])).
Proof.
  split; [vm_compute; reflexivity|]. split; [vm_compute; reflexivity|].
  exact (empty_list_completes (Ext := scripted) "task-0" 42 demo_world demo_channel
           ltac:(vm_compute; reflexivity) ltac:(vm_compute; reflexivity)).
Defined.

Lemma one_fetch_per_datasource_witness :
  superseded
    (cached_value <$>
       cache demo_world !! get_cache_key_create_contact_points_for_datasource 42)
    "task-0" = false ∧
  channels demo_world !! 42 = Some demo_channel ∧
  count_events is_config_fetch
    (emitted (create_contact_points_for_datasource (Ext := scripted) "task-0" 42
                [ds_uid "a"; ds_uid "bad"; ds_uid "missing"]) demo_world)
  = 3%nat.
Proof.
  split; [vm_compute; reflexivity|]. split; [vm_compute; reflexivity|].
  destruct (one_fetch_per_datasource (Ext := scripted) "task-0" 42
              [ds_uid "a"; ds_uid "bad"; ds_uid "missing"] demo_world demo_channel
              ltac:(vm_compute; reflexivity) ltac:(vm_compute; reflexivity))
    as (H & _).
  exact H.
Defined.

Lemma config_present_creates_witness :
  (fetch_config (Ext := scripted) 42 demo_channel (ds_uid "stuck") demo_world).1.1
    = Some () ∧
  emitted
    (loop_body (Ext := scripted) 42 demo_channel (make_client demo_channel)
       (ds_uid "stuck") [])
    demo_world
  = [config_call_event (ds_uid "stuck") get_alerting_config;
     CreateContactPoint (ds_uid "stuck"); Log WARNING].
Proof.
  split; [vm_compute; reflexivity|].
  destruct (config_present_creates (Ext := scripted) 42 demo_channel
              (ds_uid "stuck") [] demo_world () ltac:(vm_compute; reflexivity))
    as (H & _).
  exact H.
Defined.

Lemma reschedule_supersedes_own_attempt_witness :
  let run := create_contact_points_for_datasource (Ext := scripted) "task-9" 42
               [ds_uid "stuck"] in
  superseded
    (cached_value <$>
       cache demo_world !! get_cache_key_create_contact_points_for_datasource 42)
    "task-9" = false ∧
  channels demo_world !! 42 = Some demo_channel ∧
  retry_set (Ext := scripted) 42 demo_channel [ds_uid "stuck"] demo_world ≠ [] ∧
  task_id (new_task 42 (retry_set 42 demo_channel [ds_uid "stuck"] demo_world) 3 demo_world)
    ≠ "task-9" ∧
  run (exec run demo_world) =
    (tt, record (CacheGet (get_cache_key_create_contact_points_for_datasource 42))
           (exec run demo_world)).
Proof.
  intros run.
  assert (H1 : superseded
      (cached_value <$>
         cache demo_world !! get_cache_key_create_contact_points_for_datasource 42)
      "task-9" = false) by (vm_compute; reflexivity).
  assert (H2 : channels demo_world !! 42 = Some demo_channel) by (vm_compute; reflexivity).
  assert (H3 : retry_set (Ext := scripted) 42 demo_channel [ds_uid "stuck"] demo_world ≠ [])
    by (vm_compute; discriminate).
  assert (H4 : task_id (new_task 42
      (retry_set 42 demo_channel [ds_uid "stuck"] demo_world) 3 demo_world) ≠ "task-9")
    by (vm_compute; discriminate).
  split; [exact H1|]. split; [exact H2|]. split; [exact H3|]. split; [exact H4|].
  destruct (reschedule_supersedes_own_attempt (Ext := scripted) "task-9" 42
              [ds_uid "stuck"] demo_world demo_channel H1 H2 H3 H4)
    as (H & _).
  exact H.
Defined.

Lemma rescheduled_round_runs_retry_list_witness :
  let w' := exec (create_contact_points_for_datasource (Ext := scripted) "task-9" 42
                    [ds_uid "a"; ds_uid "stuck"]) demo_world in
  let r := retry_set (Ext := scripted) 42 demo_channel [ds_uid "a"; ds_uid "stuck"]
             demo_world in
  superseded
    (cached_value <$>
       cache demo_world !! get_cache_key_create_contact_points_for_datasource 42)
    "task-9" = false ∧
  channels demo_world !! 42 = Some demo_channel ∧
  r ≠ [] ∧
  count_events is_config_fetch (emitted (run_task (new_task 42 r 3 demo_world)) w')
  = length r.
Proof.
  intros w' r.
  assert (H1 : superseded
      (cached_value <$>
         cache demo_world !! get_cache_key_create_contact_points_for_datasource 42)
      "task-9" = false) by (vm_compute; reflexivity).
  assert (H2 : channels demo_world !! 42 = Some demo_channel) by (vm_compute; reflexivity).
  assert (H3 : r ≠ []) by (vm_compute; discriminate).
  split; [exact H1|]. split; [exact H2|]. split; [exact H3|].
  destruct (rescheduled_round_runs_retry_list (Ext := scripted) "task-9" 42
              [ds_uid "a"; ds_uid "stuck"] demo_world demo_channel H1 H2 H3)
    as (_ & _ & H & _).
  exact H.
Defined.
